(** * rsocket-py: the error taxonomy and first-frame validation

    A shallow embedding of [rsocket/errors.py] together with the two
    interaction state machines whose behaviour the test-suite
    ([tests/rsocket/test_rsocket.py]) exercises.

    Python integers are [Z], Python [str] is [string], and a Python
    call that may either [return] a value or [raise] an exception is a
    value of type [outcome]. *)

From Stdlib Require Import ZArith String Ascii List Lia Bool.
From Stdlib Require Import DecimalPos DecimalZ DecimalString.
Import ListNotations.

Local Open Scope string_scope.
Local Open Scope Z_scope.

(** ** Python built-ins used by the sources *)

(** [str(n)] for an [int]: decimal digits, a leading minus sign for
    negative numbers.  This is what the [{}] placeholder of
    [str.format] produces for an integer argument. *)
Definition str_int (n : Z) : string :=
  NilZero.string_of_int (Z.to_int n).

(** [needle in haystack] for two strings. *)
Fixpoint contains (needle haystack : string) : bool :=
  if prefix needle haystack then true
  else match haystack with
       | EmptyString => false
       | String _ rest => contains needle rest
       end.

(** [ch in s] for a single character. *)
Fixpoint occurs (ch : ascii) (s : string) : bool :=
  match s with
  | EmptyString => false
  | String c rest => if Ascii.eqb ch c then true else occurs ch rest
  end.

(** ** [rsocket.frame]: the names [errors.py] imports *)

Module Frame.

(** [ErrorCode]: the enumeration is declared in [rsocket/frame.py];
    [errors.py] only compares against eight of its members, so the
    table of their integer values is a parameter of everything
    below. *)
Class ErrorCode : Type := {
  INVALID_SETUP : Z;
  UNSUPPORTED_SETUP : Z;
  REJECTED_SETUP : Z;
  CONNECTION_ERROR : Z;
  APPLICATION_ERROR : Z;
  REJECTED : Z;
  CANCELED : Z;
  INVALID : Z
}.

(** The members [handle] recognises on stream id 0, and those it
    recognises on any other stream id, in the order it tests them. *)
Definition connection_codes `{ErrorCode} : list Z :=
  [INVALID_SETUP; UNSUPPORTED_SETUP; REJECTED_SETUP; CONNECTION_ERROR].

Definition stream_codes `{ErrorCode} : list Z :=
  [APPLICATION_ERROR; REJECTED; CANCELED; INVALID].

(** The values the RSocket wire protocol assigns to these members;
    used to instantiate the table on concrete inputs. *)
Definition protocol_codes : ErrorCode := {|
  INVALID_SETUP := 0x001;
  UNSUPPORTED_SETUP := 0x002;
  REJECTED_SETUP := 0x003;
  CONNECTION_ERROR := 0x101;
  APPLICATION_ERROR := 0x201;
  REJECTED := 0x202;
  CANCELED := 0x203;
  INVALID := 0x204
|}.

(** Modelled from the spec: the frame classes of [rsocket/frame.py],
    which is not among the sources.  A decoded frame is a record
    tagged with one of the frame types of the codec boundary and
    carrying a stream id. *)
Inductive FrameType : Type :=
| SETUP | RESUME | REQUEST_FNF | REQUEST_RESPONSE | REQUEST_STREAM
| REQUEST_CHANNEL | REQUEST_N | CANCEL | PAYLOAD | ERROR | KEEPALIVE.

Record Frame : Type := mkFrame {
  frame_type : FrameType;
  stream_id : Z
}.

(** [isinstance(frame, SetupFrame)] *)
Definition isinstance_SetupFrame (frame : Frame) : bool :=
  match frame_type frame with
  | SETUP => true
  | _ => false
  end.

(** [isinstance(frame, ResumeFrame)] *)
Definition isinstance_ResumeFrame (frame : Frame) : bool :=
  match frame_type frame with
  | RESUME => true
  | _ => false
  end.

End Frame.

(** ** [rsocket/errors.py] *)

Module Errors.
Import Frame.

Definition ERROR_INVALID_STREAM : string :=
  "SETUP or RESUME is not a frame with stream id of 0".
Definition ERROR_INVALID_FIRST_FRAME : string :=
  "first frame must be setup or resume".
Definition ERROR_UNSUPPORTED_RESUME : string :=
  "unsupported resume yet".

(** The subclasses of [CustomException].  None of them adds a field
    or overrides a method, so an exception object is its class
    together with the two attributes [__init__] stores. *)
Inductive ExceptionClass : Type :=
| InvalidSetup | RejectedSetup | UnsupportedSetup | ConnectionError
| IllegalArgument | Application | Rejected | Connection | Canceled
| Invalid.

Record CustomException : Type := mkCustomException {
  exn_class : ExceptionClass;
  err_code : Z;
  err_msg : string
}.

Definition InvalidSetupException := mkCustomException InvalidSetup.
Definition RejectedSetupException := mkCustomException RejectedSetup.
Definition UnsupportedSetupException := mkCustomException UnsupportedSetup.
Definition ConnectionErrorException := mkCustomException ConnectionError.
Definition IllegalArgumentException := mkCustomException IllegalArgument.
Definition ApplicationException := mkCustomException Application.
Definition RejectedException := mkCustomException Rejected.
Definition ConnectionException := mkCustomException Connection.
Definition CanceledException := mkCustomException Canceled.
Definition InvalidException := mkCustomException Invalid.

(** What a call does: it hands back a value or it raises. *)
Inductive outcome (A : Type) : Type :=
| Return (a : A)
| Raise (e : CustomException).
Arguments Return {A} a.
Arguments Raise {A} e.

Section WithErrorCode.
Context {EC : ErrorCode}.

(** [RuntimeExceptions.handle] *)
Definition handle (stream_id err_code : Z) (err_msg : string)
  : outcome CustomException :=
  if stream_id =? 0 then
    if err_code =? INVALID_SETUP then
      Return (InvalidSetupException err_code err_msg)
    else if err_code =? UNSUPPORTED_SETUP then
      Return (UnsupportedSetupException err_code err_msg)
    else if err_code =? REJECTED_SETUP then
      Return (RejectedSetupException err_code err_msg)
    else if err_code =? CONNECTION_ERROR then
      Return (ConnectionErrorException err_code err_msg)
    else
      Return (IllegalArgumentException err_code
                ("Invalid Error frame in Stream ID 0: "
                   ++ str_int stream_id ++ ", '" ++ err_msg ++ "'"))
  else
    if err_code =? APPLICATION_ERROR then
      Return (ApplicationException err_code err_msg)
    else if err_code =? REJECTED then
      Return (RejectedException err_code err_msg)
    else if err_code =? CANCELED then
      Return (CanceledException err_code err_msg)
    else if err_code =? INVALID then
      Return (InvalidException err_code err_msg)
    else
      Return (IllegalArgumentException err_code
                ("Invalid Error frame in Stream ID 0: "
                   ++ str_int stream_id ++ ", '" ++ err_msg ++ "'")).

(** [verify_first_frame]; falling off the end returns [None]. *)
Definition verify_first_frame (frame : Frame) : outcome unit :=
  if negb (stream_id frame =? 0) then
    Raise (InvalidSetupException INVALID_SETUP ERROR_INVALID_STREAM)
  else if negb (isinstance_SetupFrame frame) then
    Raise (InvalidSetupException INVALID_SETUP ERROR_INVALID_FIRST_FRAME)
  else
    Return tt.

(** The codes [handle] maps to a dedicated class at a given
    stream id. *)
Definition mapped_codes (stream_id : Z) : list Z :=
  if stream_id =? 0 then connection_codes else stream_codes.

End WithErrorCode.

End Errors.


(** ** Interaction state machines

    The multiplexer ([rsocket/rsocket.py]) and the reactive producer it
    drives are not among the sources; only the tests that exercise
    them are.  The two machines below follow the specification of the
    interaction models. *)

Module Interaction.

(** Modelled from the spec: the lifecycle states common to all
    interaction models, [Initiated -> Active -> {Completed | Errored |
    Canceled}]; the multiplexer that implements them is missing. *)
Inductive Lifecycle : Type :=
| Initiated | Active | Completed | Errored | Canceled.

(** Modelled from the spec: the terminal states of the missing stream
    state machine; they are absorbing. *)
Definition terminal (l : Lifecycle) : bool :=
  match l with
  | Completed | Errored | Canceled => true
  | Initiated | Active => false
  end.

End Interaction.

Module RequestStream.
Import Interaction.

Section Machine.
Context {Item : Type}.

(** Modelled from the spec: the responder's state machine of one
    request-stream, missing with the multiplexer.  [credit] is the
    outstanding request-n credit, [producer] what the reactive
    producer returned by the handler has yet to yield, and [emitted]
    the payload frames sent so far, oldest first. *)
Record Stream : Type := mkStream {
  state : Lifecycle;
  credit : Z;
  producer : list Item;
  emitted : list Item
}.

(** Modelled from the spec: the frames the peer sends on the stream
    after the initiating one (the frame codec is missing). *)
Inductive PeerFrame : Type :=
| RequestN (n : Z)
| Cancel.

(** Modelled from the spec: one emission of the missing state machine.
    An item is emitted only while the stream is active and credit is
    left; emitting decrements the credit. *)
Definition emit_one (s : Stream) : option Stream :=
  match state s, producer s with
  | Active, item :: rest =>
      if 0 <? credit s
      then Some (mkStream Active (credit s - 1) rest (emitted s ++ [item]))
      else None
  | _, _ => None
  end.

(** Modelled from the spec: the missing emission loop; it emits until
    [emit_one] refuses or the fuel is spent. *)
Fixpoint drain (fuel : nat) (s : Stream) : Stream :=
  match fuel with
  | O => s
  | S fuel' =>
      match emit_one s with
      | Some s' => drain fuel' s'
      | None => s
      end
  end.

(** Modelled from the spec: completion of the missing state machine; an
    active stream whose producer is exhausted completes. *)
Definition complete (s : Stream) : Stream :=
  match state s, producer s with
  | Active, [] => mkStream Completed (credit s) [] (emitted s)
  | _, _ => s
  end.

(** Modelled from the spec: the missing state machine run until it has
    to wait for the peer.  Every emission consumes one item of the
    producer, so its length is fuel enough. *)
Definition run (s : Stream) : Stream :=
  complete (drain (length (producer s)) s).

(** Modelled from the spec: the missing handling of the initiating
    frame.  The initial credit is the request-n value the frame
    carries; the handler binding returns the producer. *)
Definition request_stream (initial_request_n : Z) (source : list Item)
  : Stream :=
  run (mkStream Active initial_request_n source []).

(** Modelled from the spec: the missing handling of an inbound frame.
    A request-n frame increments the credit and emission resumes; a
    cancel frame halts production; a terminal stream ignores every
    frame. *)
Definition receive (s : Stream) (f : PeerFrame) : Stream :=
  if terminal (state s) then s
  else
    match f with
    | RequestN n =>
        run (mkStream (state s) (credit s + n) (producer s) (emitted s))
    | Cancel =>
        mkStream Canceled (credit s) (producer s) (emitted s)
    end.

(** Modelled from the spec: the missing state machine fed a sequence of
    inbound frames, in the order received. *)
Definition receive_all (s : Stream) (fs : list PeerFrame) : Stream :=
  fold_left receive fs s.

End Machine.

Arguments Stream Item : clear implicits.

(** The producer of [test_request_stream_rxbp]:
    [rxbp.from_range(8)] mapped to the payload data [b'data-<v>']. *)
Definition data_of (v : Z) : string := "data-" ++ str_int v.

Definition from_range_8 : list string :=
  map data_of [0; 1; 2; 3; 4; 5; 6; 7].

End RequestStream.

Module RequestResponse.
Import Interaction.

(** Modelled from the spec: a deferred single result (the handler's
    future, or the one handed to the caller); the code that drives it
    is missing with the multiplexer. *)
Inductive Deferred (A E : Type) : Type :=
| Pending
| Resolved (a : A)
| Failed (e : E)
| Cancelled.
Arguments Pending {A E}.
Arguments Resolved {A E} a.
Arguments Failed {A E} e.
Arguments Cancelled {A E}.

Section Machine.
Context {Payload Err : Type}.

(** Modelled from the spec: the frames of one request-response
    exchange (the frame codec is missing). *)
Inductive Frame : Type :=
| RequestResponseFrame (p : Payload)
| PayloadFrame (p : Payload)
| ErrorFrame (e : Err)
| CancelFrame.

(** Modelled from the spec: one side's state machine for the stream
    (missing with the multiplexer): its lifecycle state and the
    deferred result it owns. *)
Record Side : Type := mkSide {
  state : Lifecycle;
  deferred : Deferred Payload Err
}.

(** Modelled from the spec: the two peers of a connection and the
    frames in flight in either direction, oldest first.  The responder
    has no state machine for the stream until the request arrives. *)
Record Connection : Type := mkConnection {
  requester : Side;
  responder : option Side;
  to_responder : list Frame;
  to_requester : list Frame
}.

(** Modelled from the spec: the handler binding; it returns a deferred
    single result, in whatever state the handler leaves it. *)
Definition Handler : Type := Payload -> Deferred Payload Err.

(** Modelled from the spec: the missing local initiation of a
    request-response; the caller is handed a pending deferred result
    and the request frame is sent. *)
Definition request_response (p : Payload) : Connection :=
  mkConnection (mkSide Active Pending) None [RequestResponseFrame p] [].

(** Modelled from the spec: what the missing multiplexer does once a
    deferred result owned by the responder is known: exactly one of
    payload or error is emitted as the corresponding frame; a result
    cancelled locally sends a cancel frame. *)
Definition settle (d : Deferred Payload Err) : Side * list Frame :=
  match d with
  | Pending => (mkSide Active Pending, [])
  | Resolved a => (mkSide Completed d, [PayloadFrame a])
  | Failed e => (mkSide Errored d, [ErrorFrame e])
  | Cancelled => (mkSide Canceled d, [CancelFrame])
  end.

(** Modelled from the spec: the missing inbound dispatch on the
    responder.  A request frame for a fresh stream invokes the handler;
    a cancel frame that arrives before local completion cancels the
    local deferred result and no response frame is sent; frames for an
    unknown or a terminal stream are dropped. *)
Definition responder_receive (h : Handler) (r : option Side) (f : Frame)
  : option Side * list Frame :=
  match r, f with
  | None, RequestResponseFrame p =>
      let (side, out) := settle (h p) in (Some side, out)
  | None, _ => (None, [])
  | Some side, CancelFrame =>
      if terminal (state side) then (r, [])
      else (Some (mkSide Canceled Cancelled), [])
  | Some _, _ => (r, [])
  end.

(** Modelled from the spec: the missing completion of the handler's
    deferred result.  Completing after a terminal state is rejected. *)
Definition handler_done (r : option Side) (result : Payload + Err)
  : option Side * list Frame :=
  match r with
  | Some side =>
      if terminal (state side) then (r, [])
      else
        let (side', out) :=
          settle (match result with
                  | inl a => Resolved a
                  | inr e => Failed e
                  end) in
        (Some side', out)
  | None => (None, [])
  end.

(** Modelled from the spec: the missing local cancellation of the
    caller's deferred result; a cancel frame is sent to the peer and
    the state becomes [Canceled].  Cancelling a terminal stream is a
    no-op. *)
Definition requester_cancel (side : Side) : Side * list Frame :=
  if terminal (state side) then (side, [])
  else (mkSide Canceled Cancelled, [CancelFrame]).

(** Modelled from the spec: the missing inbound dispatch on the
    requester; the peer's payload or error completes the caller's
    deferred result, and a terminal stream ignores every frame. *)
Definition requester_receive (side : Side) (f : Frame) : Side :=
  if terminal (state side) then side
  else
    match f with
    | PayloadFrame a => mkSide Completed (Resolved a)
    | ErrorFrame e => mkSide Errored (Failed e)
    | CancelFrame => mkSide Canceled Cancelled
    | RequestResponseFrame _ => side
    end.

(** Modelled from the spec: what can happen next on the connection. *)
Inductive Action : Type :=
| DeliverToResponder
| DeliverToRequester
| CallerCancels
| HandlerCompletes (result : Payload + Err).

(** Modelled from the spec: one step of the connection; frames of a
    stream are processed in the order received. *)
Definition step (h : Handler) (c : Connection) (a : Action) : Connection :=
  match a with
  | DeliverToResponder =>
      match to_responder c with
      | [] => c
      | f :: rest =>
          let (r, out) := responder_receive h (responder c) f in
          mkConnection (requester c) r rest (to_requester c ++ out)
      end
  | DeliverToRequester =>
      match to_requester c with
      | [] => c
      | f :: rest =>
          mkConnection (requester_receive (requester c) f) (responder c)
                       (to_responder c) rest
      end
  | CallerCancels =>
      let (side, out) := requester_cancel (requester c) in
      mkConnection side (responder c) (to_responder c ++ out)
                   (to_requester c)
  | HandlerCompletes result =>
      let (r, out) := handler_done (responder c) result in
      mkConnection (requester c) r (to_responder c) (to_requester c ++ out)
  end.

(** Modelled from the spec: a schedule of steps. *)
Definition steps (h : Handler) (c : Connection) (acts : list Action)
  : Connection :=
  fold_left (step h) acts c.

(** What the caller observes, and what the handler's future observes. *)
Definition caller (c : Connection) : Deferred Payload Err :=
  deferred (requester c).

Definition handler_future (c : Connection) : option (Deferred Payload Err) :=
  option_map deferred (responder c).

(** [future.cancelled()] *)
Definition cancelled (d : Deferred Payload Err) : bool :=
  match d with
  | Cancelled => true
  | _ => false
  end.

(** The handler of [test_request_response_cancellation]: it returns a
    future that is never completed. *)
Definition never_completes : Handler := fun _ => Pending.

End Machine.

Arguments Frame : clear implicits.
Arguments Side : clear implicits.
Arguments Connection : clear implicits.
Arguments Handler : clear implicits.
Arguments Action : clear implicits.

End RequestResponse.


(** ** [tests/rsocket/test_rsocket.py]: the handlers of the
    request-response tests

    The handlers build and complete [asyncio.Future] objects whose
    results are [Payload] objects; [future_done] assigns to the
    attributes of the payload it is given, so payload objects live in a
    heap and a future holds a reference. *)

Module TestHandlers.

(** Modelled from the spec: [rsocket.payload.Payload] is not among the
    sources; a payload is a pair of byte sequences [(data, metadata)],
    both present here.  A [bytes] object is a string of 8-bit
    characters. *)
Record Payload : Type := mkPayload {
  data : string;
  metadata : string
}.

(** The exceptions these handlers meet: [RuntimeError(msg)], the
    [InvalidStateError] and [CancelledError] of [asyncio], and the
    exceptions of [errors.py]. *)
Inductive PyException : Type :=
| RuntimeError (msg : string)
| InvalidStateError
| CancelledError
| Protocol (e : Errors.CustomException).

(** [asyncio.Future]: pending, or done with a result (a reference to a
    payload object), with an exception, or by cancellation. *)
Inductive Future : Type :=
| Pending
| Result (payload : nat)
| Exception (e : PyException)
| Cancelled.





(** [future.cancelled()] *)
Definition cancelled (f : Future) : bool :=
  match f with
  | Cancelled => true
  | _ => false
  end.


(** [future.result()] *)
Definition result (f : Future) : nat + PyException :=
  match f with
  | Pending => inr InvalidStateError
  | Result payload => inl payload
  | Exception e => inr e
  | Cancelled => inr CancelledError
  end.









End TestHandlers.


(** * Properties *)

(** ** Strings *)

Lemma string_length_app (a b : string) :
  String.length (a ++ b) = (String.length a + String.length b)%nat.
Proof.
  induction a as [|c a IH]; simpl; [reflexivity | now rewrite IH].
Qed.

Lemma string_app_assoc (a b c : string) :
  ((a ++ b) ++ c = a ++ (b ++ c))%string.
Proof.
  induction a as [|x a IH]; simpl; [reflexivity | now rewrite IH].
Qed.

Lemma prefix_app (a b : string) : prefix a (a ++ b) = true.
Proof.
  induction a as [|c a IH]; simpl.
  - now destruct b.
  - destruct (ascii_dec c c) as [_|ne]; [exact IH | now elim ne].
Qed.

Lemma prefix_split (a s : string) :
  prefix a s = true -> exists b, s = a ++ b.
Proof.
  revert s; induction a as [|c a IH]; intros s H.
  - now exists s.
  - destruct s as [|d s]; simpl in H; [discriminate|].
    destruct (ascii_dec c d) as [->|]; [|discriminate].
    destruct (IH s H) as [b ->]. now exists b.
Qed.

Lemma contains_unfold (needle s : string) :
  contains needle s =
  if prefix needle s then true
  else match s with
       | EmptyString => false
       | String _ rest => contains needle rest
       end.
Proof. destruct s; reflexivity. Qed.

Lemma contains_app (needle a b : string) :
  contains needle (a ++ needle ++ b) = true.
Proof.
  induction a as [|c a IH].
  - rewrite contains_unfold. simpl. now rewrite prefix_app.
  - rewrite contains_unfold. cbn [append]. rewrite IH.
    now destruct (prefix needle _).
Qed.

(** [contains] decides the substring relation. *)
Lemma contains_spec (needle s : string) :
  contains needle s = true <-> exists a b, s = a ++ needle ++ b.
Proof.
  split.
  - induction s as [|c s IH]; rewrite contains_unfold;
      destruct (prefix needle _) eqn:E; try discriminate.
    + intros _. destruct (prefix_split _ _ E) as [b Eb]. now exists "", b.
    + intros _. destruct (prefix_split _ _ E) as [b Eb]. now exists "", b.
    + intros H. destruct (IH H) as (a & b & ->). now exists (String c a), b.
  - intros (a & b & ->). apply contains_app.
Qed.

(** [str] is injective on integers: different numbers print
    differently. *)
Lemma str_int_inj (n m : Z) : str_int n = str_int m -> n = m.
Proof.
  unfold str_int. intros H.
  assert (ok : forall z, NilZero.int_of_string
                           (NilZero.string_of_int (Z.to_int z))
                         = Some (Z.to_int z)).
  { intros z. apply NilZero.isi; destruct z; simpl; try discriminate;
      intros E; injection E; apply Unsigned.to_uint_nonnil. }
  apply DecimalZ.to_int_inj.
  assert (E : Some (Z.to_int n) = Some (Z.to_int m))
    by (rewrite <- !ok, H; reflexivity).
  now injection E.
Qed.

(** ** [RuntimeExceptions.handle] *)

Section HandleFacts.
Import Frame Errors.
Context {EC : ErrorCode}.

(** The branch [handle] takes is decided by [stream_id == 0] alone. *)
Lemma handle_connection_branch (err_code : Z) (err_msg : string) :
  handle 0 err_code err_msg =
  if err_code =? INVALID_SETUP then
    Return (InvalidSetupException err_code err_msg)
  else if err_code =? UNSUPPORTED_SETUP then
    Return (UnsupportedSetupException err_code err_msg)
  else if err_code =? REJECTED_SETUP then
    Return (RejectedSetupException err_code err_msg)
  else if err_code =? CONNECTION_ERROR then
    Return (ConnectionErrorException err_code err_msg)
  else
    Return (IllegalArgumentException err_code
              ("Invalid Error frame in Stream ID 0: 0, '" ++ err_msg ++ "'")).
Proof. reflexivity. Qed.

Lemma handle_stream_branch (stream_id err_code : Z) (err_msg : string) :
  stream_id <> 0 ->
  handle stream_id err_code err_msg =
  if err_code =? APPLICATION_ERROR then
    Return (ApplicationException err_code err_msg)
  else if err_code =? REJECTED then
    Return (RejectedException err_code err_msg)
  else if err_code =? CANCELED then
    Return (CanceledException err_code err_msg)
  else if err_code =? INVALID then
    Return (InvalidException err_code err_msg)
  else
    Return (IllegalArgumentException err_code
              ("Invalid Error frame in Stream ID 0: "
                 ++ str_int stream_id ++ ", '" ++ err_msg ++ "'")).
Proof.
  intros nz. unfold handle.
  now destruct (Z.eqb_spec stream_id 0).
Qed.

(** A code outside the four tested ones falls through every test. *)
Lemma not_in_four (c c1 c2 c3 c4 : Z) :
  ~ In c [c1; c2; c3; c4] ->
  (c =? c1) = false /\ (c =? c2) = false /\
  (c =? c3) = false /\ (c =? c4) = false.
Proof.
  simpl. intros H. repeat split; apply Z.eqb_neq; intros ->; tauto.
Qed.

Lemma nodup_four (c1 c2 c3 c4 : Z) :
  NoDup [c1; c2; c3; c4] ->
  c1 <> c2 /\ c1 <> c3 /\ c1 <> c4 /\ c2 <> c3 /\ c2 <> c4 /\ c3 <> c4.
Proof.
  rewrite !NoDup_cons_iff. simpl. intuition congruence.
Qed.

(** The fall-through case, on either branch. *)
Lemma handle_unmapped (stream_id err_code : Z) (err_msg : string) :
  ~ In err_code (mapped_codes stream_id) ->
  handle stream_id err_code err_msg =
  Return (IllegalArgumentException err_code
            ("Invalid Error frame in Stream ID 0: "
               ++ str_int stream_id ++ ", '" ++ err_msg ++ "'")).
Proof.
  unfold mapped_codes, handle.
  destruct (stream_id =? 0); intros H;
    apply not_in_four in H; destruct H as (-> & -> & -> & ->); reflexivity.
Qed.

(** C1.  On a stream id other than 0, each of the codes
    APPLICATION_ERROR, REJECTED, CANCELED and INVALID yields the
    exception class of the same name, carrying the code and the message
    it was given unchanged; any other code yields an
    IllegalArgumentException. *)
Theorem handle_stream_scope (stream_id err_code : Z) (err_msg : string) :
  NoDup stream_codes ->
  stream_id <> 0 ->
  (err_code = APPLICATION_ERROR ->
   handle stream_id err_code err_msg
   = Return (ApplicationException err_code err_msg)) /\
  (err_code = REJECTED ->
   handle stream_id err_code err_msg
   = Return (RejectedException err_code err_msg)) /\
  (err_code = CANCELED ->
   handle stream_id err_code err_msg
   = Return (CanceledException err_code err_msg)) /\
  (err_code = INVALID ->
   handle stream_id err_code err_msg
   = Return (InvalidException err_code err_msg)) /\
  (~ In err_code stream_codes ->
   exists diagnostic,
     handle stream_id err_code err_msg
     = Return (IllegalArgumentException err_code diagnostic)).
Proof.
  intros distinct nz. rewrite (handle_stream_branch _ _ _ nz).
  apply nodup_four in distinct.
  destruct distinct as (d12 & d13 & d14 & d23 & d24 & d34).
  repeat split.
  - intros ->. now rewrite Z.eqb_refl.
  - intros ->. rewrite Z.eqb_refl.
    now destruct (Z.eqb_spec REJECTED APPLICATION_ERROR); [congruence|].
  - intros ->. rewrite Z.eqb_refl.
    destruct (Z.eqb_spec CANCELED APPLICATION_ERROR); [congruence|].
    now destruct (Z.eqb_spec CANCELED REJECTED); [congruence|].
  - intros ->. rewrite Z.eqb_refl.
    destruct (Z.eqb_spec INVALID APPLICATION_ERROR); [congruence|].
    destruct (Z.eqb_spec INVALID REJECTED); [congruence|].
    now destruct (Z.eqb_spec INVALID CANCELED); [congruence|].
  - intros H. apply not_in_four in H. destruct H as (-> & -> & -> & ->).
    eexists. reflexivity.
Qed.

(** C2.  On stream id 0, each of the codes INVALID_SETUP,
    UNSUPPORTED_SETUP, REJECTED_SETUP and CONNECTION_ERROR yields the
    matching exception class, carrying the code and the message it was
    given unchanged; any other code yields an
    IllegalArgumentException. *)
Theorem handle_connection_scope (err_code : Z) (err_msg : string) :
  NoDup connection_codes ->
  (err_code = INVALID_SETUP ->
   handle 0 err_code err_msg
   = Return (InvalidSetupException err_code err_msg)) /\
  (err_code = UNSUPPORTED_SETUP ->
   handle 0 err_code err_msg
   = Return (UnsupportedSetupException err_code err_msg)) /\
  (err_code = REJECTED_SETUP ->
   handle 0 err_code err_msg
   = Return (RejectedSetupException err_code err_msg)) /\
  (err_code = CONNECTION_ERROR ->
   handle 0 err_code err_msg
   = Return (ConnectionErrorException err_code err_msg)) /\
  (~ In err_code connection_codes ->
   exists diagnostic,
     handle 0 err_code err_msg
     = Return (IllegalArgumentException err_code diagnostic)).
Proof.
  intros distinct. rewrite handle_connection_branch.
  apply nodup_four in distinct.
  destruct distinct as (d12 & d13 & d14 & d23 & d24 & d34).
  repeat split.
  - intros ->. now rewrite Z.eqb_refl.
  - intros ->. rewrite Z.eqb_refl.
    now destruct (Z.eqb_spec UNSUPPORTED_SETUP INVALID_SETUP); [congruence|].
  - intros ->. rewrite Z.eqb_refl.
    destruct (Z.eqb_spec REJECTED_SETUP INVALID_SETUP); [congruence|].
    now destruct (Z.eqb_spec REJECTED_SETUP UNSUPPORTED_SETUP); [congruence|].
  - intros ->. rewrite Z.eqb_refl.
    destruct (Z.eqb_spec CONNECTION_ERROR INVALID_SETUP); [congruence|].
    destruct (Z.eqb_spec CONNECTION_ERROR UNSUPPORTED_SETUP); [congruence|].
    now destruct (Z.eqb_spec CONNECTION_ERROR REJECTED_SETUP); [congruence|].
  - intros H. apply not_in_four in H. destruct H as (-> & -> & -> & ->).
    eexists. reflexivity.
Qed.

(** The diagnostic of the fall-through case embeds the decimal stream
    id and the message it was given. *)
Lemma diagnostic_echoes (stream_id : Z) (message : string) :
  let diagnostic := "Invalid Error frame in Stream ID 0: "
                      ++ str_int stream_id ++ ", '" ++ message ++ "'" in
  contains (str_int stream_id) diagnostic = true /\
  contains message diagnostic = true /\
  diagnostic <> message.
Proof.
  cbv zeta. repeat split.
  - apply contains_app.
  - rewrite <- (string_app_assoc (str_int stream_id)).
    rewrite <- (string_app_assoc "Invalid Error frame in Stream ID 0: ").
    apply contains_app.
  - intros E. apply (f_equal String.length) in E.
    rewrite !string_length_app in E. simpl in E. lia.
Qed.

(** C5, as the code has it.  For every stream id and every code that
    [handle] does not map at that stream id, the
    IllegalArgumentException returned carries the offending code in its
    [err_code] attribute, and its diagnostic message echoes the
    offending stream id and the message it was given; the text of the
    diagnostic is the same whatever the offending code is. *)
Theorem handle_illegal_argument_diagnostic
  (stream_id code : Z) (message : string) :
  ~ In code (mapped_codes stream_id) ->
  exists e,
    handle stream_id code message = Return e /\
    exn_class e = IllegalArgument /\
    err_code e = code /\
    contains (str_int stream_id) (err_msg e) = true /\
    contains message (err_msg e) = true /\
    forall code', ~ In code' (mapped_codes stream_id) ->
      exists e', handle stream_id code' message = Return e' /\
                 err_msg e' = err_msg e.
Proof.
  intros H. rewrite (handle_unmapped _ _ _ H).
  eexists; split; [reflexivity|]. cbn [exn_class err_code err_msg
    IllegalArgumentException].
  destruct (diagnostic_echoes stream_id message) as (Hs & Hm & _).
  repeat split; try assumption.
  intros code' H'. rewrite (handle_unmapped _ _ _ H').
  eexists; split; reflexivity.
Qed.

(** C6.  [handle] is total and never raises: for every stream id, code
    and message it returns an exception object, which carries the code
    it was given; a code it does not map degrades to an
    IllegalArgumentException.  The embedding has no state to thread
    through the call: the value returned is a function of the three
    arguments. *)
Theorem handle_total (stream_id code : Z) (message : string) :
  exists e,
    handle stream_id code message = Return e /\
    err_code e = code /\
    (forall raised, handle stream_id code message <> Raise raised) /\
    (~ In code (mapped_codes stream_id) -> exn_class e = IllegalArgument).
Proof.
  unfold handle, mapped_codes.
  destruct (stream_id =? 0);
    repeat match goal with
           | |- context [if ?b then _ else _] => destruct b eqn:?
           end;
    (eexists; split; [reflexivity|]; split; [reflexivity|];
     split; [discriminate|];
     intros H; apply not_in_four in H; intuition congruence).
Qed.

(** C9.  On a stream id other than 0 and a code outside
    APPLICATION_ERROR, REJECTED, CANCELED and INVALID, the message of
    the IllegalArgumentException returned is the fixed text
    "Invalid Error frame in Stream ID 0: " followed by the actual
    stream id (which does not print as 0), a comma, and the message it
    was given between single quotes; the message given is embedded in
    it and is not the [err_msg] itself. *)
Theorem handle_stream_illegal_argument_message
  (stream_id code : Z) (message : string) :
  stream_id <> 0 ->
  ~ In code stream_codes ->
  exists e,
    handle stream_id code message = Return e /\
    exn_class e = IllegalArgument /\
    err_msg e = "Invalid Error frame in Stream ID 0: "
                  ++ str_int stream_id ++ ", '" ++ message ++ "'" /\
    str_int stream_id <> "0" /\
    contains message (err_msg e) = true /\
    err_msg e <> message.
Proof.
  intros nz H.
  assert (H' : ~ In code (mapped_codes stream_id)).
  { unfold mapped_codes. now destruct (Z.eqb_spec stream_id 0). }
  rewrite (handle_unmapped _ _ _ H').
  eexists; split; [reflexivity|]. cbn [exn_class err_code err_msg
    IllegalArgumentException].
  destruct (diagnostic_echoes stream_id message) as (_ & Hm & Hne).
  repeat split; try assumption.
  intros E. apply nz. now apply str_int_inj.
Qed.

End HandleFacts.

(** ** [verify_first_frame] *)

Section VerifyFirstFrameFacts.
Import Frame Errors.
Context {EC : ErrorCode}.

Lemma verify_first_frame_nonzero (frame : Frame) :
  stream_id frame <> 0 ->
  verify_first_frame frame
  = Raise (InvalidSetupException INVALID_SETUP ERROR_INVALID_STREAM).
Proof.
  intros nz. unfold verify_first_frame.
  now destruct (Z.eqb_spec (stream_id frame) 0).
Qed.

Lemma verify_first_frame_zero (frame : Frame) :
  stream_id frame = 0 ->
  verify_first_frame frame
  = if isinstance_SetupFrame frame then Return tt
    else Raise (InvalidSetupException INVALID_SETUP
                  ERROR_INVALID_FIRST_FRAME).
Proof.
  intros z. unfold verify_first_frame. rewrite z. simpl.
  now destruct (isinstance_SetupFrame frame).
Qed.

Lemma isinstance_SetupFrame_iff (frame : Frame) :
  isinstance_SetupFrame frame = true <-> frame_type frame = SETUP.
Proof.
  unfold isinstance_SetupFrame.
  destruct (frame_type frame); split; congruence.
Qed.

(** C3.  A frame with a stream id other than 0 is refused with an
    InvalidSetupException whose message is exactly "SETUP or RESUME is
    not a frame with stream id of 0"; a frame with stream id 0 that is
    not a setup frame is refused with an InvalidSetupException whose
    message is exactly "first frame must be setup or resume"; a setup
    frame with stream id 0 passes and the call returns. *)
Theorem verify_first_frame_spec (frame : Frame) :
  (stream_id frame <> 0 ->
   verify_first_frame frame
   = Raise (InvalidSetupException INVALID_SETUP
              "SETUP or RESUME is not a frame with stream id of 0")) /\
  (stream_id frame = 0 -> frame_type frame <> SETUP ->
   verify_first_frame frame
   = Raise (InvalidSetupException INVALID_SETUP
              "first frame must be setup or resume")) /\
  (stream_id frame = 0 -> frame_type frame = SETUP ->
   verify_first_frame frame = Return tt).
Proof.
  repeat split.
  - apply verify_first_frame_nonzero.
  - intros z ns. rewrite (verify_first_frame_zero _ z).
    destruct (isinstance_SetupFrame frame) eqn:E; [|reflexivity].
    now apply isinstance_SetupFrame_iff in E.
  - intros z st. rewrite (verify_first_frame_zero _ z).
    apply isinstance_SetupFrame_iff in st. now rewrite st.
Qed.

(** C4, as the code has it.  A resume frame presented as the first
    frame never passes first-frame validation: whatever its stream id,
    [verify_first_frame] raises, and what it raises is an
    InvalidSetupException carrying the code INVALID_SETUP. *)
Theorem verify_first_frame_resume (frame : Frame) :
  frame_type frame = RESUME ->
  verify_first_frame frame <> Return tt /\
  exists e,
    verify_first_frame frame = Raise e /\
    exn_class e = InvalidSetup /\
    err_code e = INVALID_SETUP.
Proof.
  intros R.
  destruct (Z.eq_dec (stream_id frame) 0) as [z|nz].
  - rewrite (verify_first_frame_zero _ z).
    unfold isinstance_SetupFrame. rewrite R.
    split; [discriminate|]. eexists; repeat split.
  - rewrite (verify_first_frame_nonzero _ nz).
    split; [discriminate|]. eexists; repeat split.
Qed.

(** C10.  The stream id is tested before the frame type: every frame
    with a stream id other than 0, a setup frame included, is refused
    with the message "SETUP or RESUME is not a frame with stream id of
    0", and so the message "first frame must be setup or resume" is
    only ever raised for a frame whose stream id is 0. *)
Theorem verify_first_frame_stream_id_first :
  (forall frame, stream_id frame <> 0 ->
     verify_first_frame frame
     = Raise (InvalidSetupException INVALID_SETUP
                "SETUP or RESUME is not a frame with stream id of 0")) /\
  (forall id, id <> 0 ->
     verify_first_frame (mkFrame SETUP id)
     = Raise (InvalidSetupException INVALID_SETUP
                "SETUP or RESUME is not a frame with stream id of 0")) /\
  (forall frame e,
     verify_first_frame frame = Raise e ->
     err_msg e = "first frame must be setup or resume" ->
     stream_id frame = 0).
Proof.
  repeat split.
  - apply verify_first_frame_nonzero.
  - intros id nz. now apply verify_first_frame_nonzero.
  - intros frame e R M.
    destruct (Z.eq_dec (stream_id frame) 0) as [z|nz]; [exact z|].
    rewrite (verify_first_frame_nonzero _ nz) in R.
    injection R as <-. discriminate M.
Qed.

End VerifyFirstFrameFacts.

(** ** Request-stream: backpressure and cancellation *)

Section RequestStreamFacts.
Import Interaction RequestStream.
Context {Item : Type}.
Implicit Types (s : Stream Item) (source out : list Item).

(** The producer's length is fuel enough: after [drain] nothing more
    can be emitted. *)
Lemma drain_quiescent (fuel : nat) s :
  (length (producer s) <= fuel)%nat -> emit_one (drain fuel s) = None.
Proof.
  revert s; induction fuel as [|fuel IH]; intros s Hlen; simpl.
  - unfold emit_one. destruct (state s); try reflexivity.
    destruct (producer s); [reflexivity | simpl in Hlen; lia].
  - destruct (emit_one s) as [s'|] eqn:E; [|exact E].
    apply IH. unfold emit_one in E.
    destruct (state s); try discriminate.
    destruct (producer s) as [|item rest]; [discriminate|].
    destruct (0 <? credit s); [|discriminate].
    injection E as <-. simpl in *. lia.
Qed.

(** What [drain] does to an active stream: it emits as many items as
    the credit allows, in the producer's order, and the credit goes
    down by that number. *)
Lemma drain_active (source : list Item) :
  forall (fuel : nat) (n : Z) out,
    (length source <= fuel)%nat ->
    let k := Nat.min (Z.to_nat n) (length source) in
    drain fuel (mkStream Active n source out)
    = mkStream Active (n - Z.of_nat k) (skipn k source)
               (out ++ firstn k source).
Proof.
  induction source as [|item rest IH]; intros fuel n out Hlen k.
  - subst k. rewrite Nat.min_0_r. simpl.
    rewrite Z.sub_0_r, app_nil_r. now destruct fuel.
  - destruct fuel as [|fuel]; [simpl in Hlen; lia|].
    simpl in Hlen. cbn [drain emit_one state producer credit emitted].
    destruct (Z.ltb_spec 0 n) as [pos|npos].
    + rewrite IH by lia. cbv zeta.
      assert (Ek : k = S (Nat.min (Z.to_nat (n - 1)) (length rest))).
      { subst k. replace (Z.to_nat n) with (S (Z.to_nat (n - 1))) by lia.
        reflexivity. }
      rewrite Ek. cbn [skipn firstn]. rewrite <- app_assoc. simpl.
      f_equal. lia.
    + assert (Ek : k = O) by (subst k; replace (Z.to_nat n) with O by lia;
                              reflexivity).
      rewrite Ek. simpl. now rewrite Z.sub_0_r, app_nil_r.
Qed.

Lemma emitted_complete s : emitted (complete s) = emitted s.
Proof.
  unfold complete. destruct (state s); try reflexivity.
  now destruct (producer s).
Qed.

Lemma emit_one_complete s :
  emit_one s = None -> emit_one (complete s) = None.
Proof.
  unfold complete, emit_one.
  destruct (state s) eqn:E, (producer s) eqn:P;
    cbn [state producer]; rewrite ?E, ?P; auto.
Qed.

(** [run] stops only when the stream has to wait: nothing more can be
    emitted from the state it returns. *)
Lemma run_quiescent s : emit_one (run s) = None.
Proof.
  unfold run. apply emit_one_complete, drain_quiescent. lia.
Qed.

(** A stream opened with less credit than the producer has items is
    left active, out of credit, with exactly the first items emitted. *)
Lemma request_stream_short_credit (n : nat) source :
  (n < length source)%nat ->
  request_stream (Z.of_nat n) source
  = mkStream Active 0 (skipn n source) (firstn n source).
Proof.
  intros Hn. unfold request_stream, run. cbn [producer].
  rewrite drain_active by lia. cbv zeta.
  rewrite Nat2Z.id, Nat.min_l by lia. rewrite Z.sub_diag. simpl app.
  unfold complete. cbn [state producer].
  destruct (skipn n source) eqn:E; [|reflexivity].
  apply (f_equal (@length Item)) in E. rewrite length_skipn in E.
  simpl in E. lia.
Qed.

(** More credit makes an active, waiting stream emit that many more
    items (as far as the producer goes), and none if the credit does
    not go up. *)
Lemma receive_request_n (n : Z) source out :
  emitted (receive (mkStream Active 0 source out) (RequestN n))
  = (out ++ firstn (Z.to_nat n) source)%list.
Proof.
  unfold receive, run. cbn [state terminal credit producer emitted].
  rewrite emitted_complete, drain_active by lia. cbv zeta.
  cbn [emitted]. f_equal. rewrite Z.add_0_l.
  destruct (Nat.min_spec (Z.to_nat n) (length source)) as [[_ ->]|[H ->]];
    [reflexivity|].
  now rewrite !firstn_all2 by lia.
Qed.

(** A terminal stream ignores whatever the peer sends. *)
Lemma receive_all_terminal s (fs : list PeerFrame) :
  terminal (state s) = true -> receive_all s fs = s.
Proof.
  intros T. unfold receive_all. induction fs as [|f fs IH]; [reflexivity|].
  simpl. unfold receive at 2. now rewrite T.
Qed.

Lemma receive_cancel_halts s (fs : list PeerFrame) :
  emitted (receive_all (receive s Cancel) fs) = emitted s.
Proof.
  rewrite receive_all_terminal.
  - unfold receive. now destruct (terminal (state s)).
  - unfold receive. destruct (terminal (state s)) eqn:T; [exact T|reflexivity].
Qed.

End RequestStreamFacts.

Section RequestStreamScenario.
Import Interaction RequestStream.

(** C7.  A request-stream opened with credit 3 over a producer of more
    than 3 items emits exactly its first 3 items and then waits: no
    item can be emitted, a request-n frame makes it emit as many more
    items as it grants (none if it grants none), and after a cancel
    frame nothing the peer sends makes it emit again.  On the 8-item
    source of the test, items 0 to 2 are emitted at once, items 3 and 4
    after a request-n of 2, and after the cancel that follows the
    emitted items stay these five for ever. *)
Theorem request_stream_backpressure :
  (forall (Item : Type) (source : list Item),
     (3 < length source)%nat ->
     let s := request_stream 3 source in
     emitted s = firstn 3 source /\
     length (emitted s) = 3%nat /\
     state s = Active /\
     credit s = 0 /\
     emit_one s = None /\
     (forall n, emitted (receive s (RequestN n))
                = (firstn 3 source
                     ++ firstn (Z.to_nat n) (skipn 3 source))%list) /\
     (forall fs, emitted (receive_all (receive s Cancel) fs)
                 = firstn 3 source)) /\
  (let s0 := request_stream 3 from_range_8 in
   emitted s0 = ["data-0"; "data-1"; "data-2"] /\
   emit_one s0 = None /\
   let s1 := receive s0 (RequestN 2) in
   emitted s1 = ["data-0"; "data-1"; "data-2"; "data-3"; "data-4"] /\
   emit_one s1 = None /\
   forall fs,
     emitted (receive_all (receive s1 Cancel) fs)
     = ["data-0"; "data-1"; "data-2"; "data-3"; "data-4"]).
Proof.
  split.
  - intros Item source Hlen s. subst s.
    change (request_stream 3 source)
      with (request_stream (Z.of_nat 3) source).
    rewrite (request_stream_short_credit 3 source Hlen).
    cbn [emitted state credit]. repeat split.
    + rewrite length_firstn. lia.
    + unfold emit_one. cbn [state producer credit].
      now destruct (skipn 3 source).
    + intros n. apply receive_request_n.
    + intros fs. now rewrite receive_cancel_halts.
  - cbv zeta. repeat split.
    intros fs. now rewrite receive_cancel_halts.
Qed.

End RequestStreamScenario.

(** ** Request-response: cancellation *)

Section RequestResponseFacts.
Import Interaction RequestResponse.
Context {Payload Err : Type}.
Implicit Types (c : Connection Payload Err) (h : Handler Payload Err)
  (a : Action Payload Err) (side : Side Payload Err).

(** Terminal states are absorbing on the requester ... *)
Lemma requester_step_terminal h c a :
  terminal (state (requester c)) = true ->
  requester (step h c a) = requester c.
Proof.
  intros T. destruct a; simpl.
  - destruct (to_responder c); [reflexivity|].
    now destruct (responder_receive h (responder c) _).
  - destruct (to_requester c); [reflexivity|]. simpl.
    unfold requester_receive. now rewrite T.
  - unfold requester_cancel. now rewrite T.
  - now destruct (handler_done (responder c) result).
Qed.

(** ... and on the responder. *)
Lemma responder_step_terminal h c a side :
  responder c = Some side ->
  terminal (state side) = true ->
  responder (step h c a) = Some side.
Proof.
  intros R T. destruct a; simpl.
  - destruct (to_responder c) as [|f rest]; [exact R|].
    rewrite R. destruct f; simpl; try reflexivity. now rewrite T.
  - now destruct (to_requester c).
  - now destruct (requester_cancel (requester c)).
  - rewrite R. simpl. now rewrite T.
Qed.

Lemma requester_steps_terminal h (acts : list (Action Payload Err)) :
  forall c,
    terminal (state (requester c)) = true ->
    requester (steps h c acts) = requester c.
Proof.
  unfold steps. induction acts as [|a acts IH]; intros c T; [reflexivity|].
  simpl. rewrite IH; rewrite requester_step_terminal; auto.
Qed.

Lemma responder_steps_terminal h (acts : list (Action Payload Err)) :
  forall c side,
    responder c = Some side ->
    terminal (state side) = true ->
    responder (steps h c acts) = Some side.
Proof.
  unfold steps. induction acts as [|a acts IH]; intros c side R T; [exact R|].
  simpl. apply IH; [|exact T]. now apply responder_step_terminal.
Qed.

(** C8.  A request-response whose handler returns a deferred result it
    has not completed: once the request is delivered the handler's
    deferred result is pending, not cancelled.  When the caller then
    cancels and the cancel frame is delivered, the caller observes a
    cancellation, which is neither a completion nor an error sent by
    the peer, the handler's deferred result is cancelled too, no
    response frame is sent, and nothing that happens on the connection
    afterwards changes what either of them observes. *)
Theorem request_response_cancellation h (p : Payload) :
  h p = Pending ->
  let c1 := steps h (request_response p) [DeliverToResponder] in
  (handler_future c1 = Some Pending /\
   option_map cancelled (handler_future c1) = Some false /\
   caller c1 = Pending) /\
  let c2 := steps h c1 [CallerCancels; DeliverToResponder] in
  caller c2 = Cancelled /\
  cancelled (caller c2) = true /\
  (forall payload, caller c2 <> Resolved payload) /\
  (forall error, caller c2 <> Failed error) /\
  handler_future c2 = Some Cancelled /\
  to_requester c2 = [] /\
  forall acts,
    caller (steps h c2 acts) = Cancelled /\
    handler_future (steps h c2 acts) = Some Cancelled.
Proof.
  intros Hp. cbv zeta.
  assert (E1 : steps h (request_response p) [DeliverToResponder]
               = mkConnection (mkSide Active Pending)
                              (Some (mkSide Active Pending)) [] []).
  { unfold steps, request_response. simpl. now rewrite Hp. }
  rewrite E1.
  assert (E2 : steps h (mkConnection (mkSide Active Pending)
                                     (Some (mkSide Active Pending)) [] [])
                     [CallerCancels; DeliverToResponder]
               = mkConnection (mkSide Canceled Cancelled)
                              (Some (mkSide Canceled Cancelled)) [] []).
  { reflexivity. }
  rewrite E2. unfold handler_future, caller.
  repeat split; try discriminate.
  - rewrite requester_steps_terminal; reflexivity.
  - rewrite (responder_steps_terminal h acts _ (mkSide Canceled Cancelled));
      reflexivity.
Qed.

End RequestResponseFacts.

(** * Concrete instances

    The theorems above at the protocol's code table and on the inputs
    of the test-suite. *)

Section Instances.
Import Frame Errors Interaction.

(** An APPLICATION_ERROR on stream 5. *)
Lemma handle_stream_scope_witness :
  NoDup (@stream_codes protocol_codes) /\ 5 <> 0 /\
  @handle protocol_codes 5 0x201 "boom"
  = Return (ApplicationException 0x201 "boom").
Proof.
  assert (D : NoDup (@stream_codes protocol_codes))
    by (repeat constructor; simpl; lia).
  split; [exact D|]. split; [lia|].
  destruct (@handle_stream_scope protocol_codes 5 0x201 "boom"
              D ltac:(lia)) as (H & _).
  apply H. reflexivity.
Defined.

(** A REJECTED_SETUP on stream 0. *)
Lemma handle_connection_scope_witness :
  NoDup (@connection_codes protocol_codes) /\
  @handle protocol_codes 0 0x003 "no"
  = Return (RejectedSetupException 0x003 "no").
Proof.
  assert (D : NoDup (@connection_codes protocol_codes))
    by (repeat constructor; simpl; lia).
  split; [exact D|].
  destruct (@handle_connection_scope protocol_codes 0x003 "no" D)
    as (_ & _ & H & _).
  apply H. reflexivity.
Defined.

(** A setup frame on stream 0 passes; a payload frame on stream 0 and a
    setup frame on stream 1 do not. *)
Lemma verify_first_frame_spec_witness :
  @verify_first_frame protocol_codes (mkFrame SETUP 0) = Return tt /\
  @verify_first_frame protocol_codes (mkFrame PAYLOAD 0)
  = Raise (InvalidSetupException 1 "first frame must be setup or resume") /\
  @verify_first_frame protocol_codes (mkFrame SETUP 1)
  = Raise (InvalidSetupException 1
             "SETUP or RESUME is not a frame with stream id of 0").
Proof.
  split; [|split].
  - destruct (@verify_first_frame_spec protocol_codes (mkFrame SETUP 0))
      as (_ & _ & H).
    apply H; reflexivity.
  - destruct (@verify_first_frame_spec protocol_codes (mkFrame PAYLOAD 0))
      as (_ & H & _).
    apply H; [reflexivity | discriminate].
  - destruct (@verify_first_frame_spec protocol_codes (mkFrame SETUP 1))
      as (H & _).
    apply H. simpl. lia.
Defined.

(** A resume frame on stream 0 is refused as an invalid setup. *)
Lemma verify_first_frame_resume_witness :
  frame_type (mkFrame RESUME 0) = RESUME /\
  @verify_first_frame protocol_codes (mkFrame RESUME 0) <> Return tt /\
  exists e,
    @verify_first_frame protocol_codes (mkFrame RESUME 0) = Raise e /\
    exn_class e = InvalidSetup /\ err_code e = 1.
Proof.
  split; [reflexivity|].
  exact (@verify_first_frame_resume protocol_codes (mkFrame RESUME 0)
           eq_refl).
Defined.

(** C4 as stated fails: the resume frame on stream 0 is refused with an
    InvalidSetupException, the code INVALID_SETUP and the message
    "first frame must be setup or resume"; the exception raised has
    neither the class, nor the code, nor the message of an unsupported
    resume. *)
Lemma resume_first_frame_not_unsupported_setup :
  @verify_first_frame protocol_codes (mkFrame RESUME 0)
  = Raise (InvalidSetupException 1 "first frame must be setup or resume") /\
  ~ (exists e,
       @verify_first_frame protocol_codes (mkFrame RESUME 0) = Raise e /\
       (exn_class e = UnsupportedSetup \/
        err_code e = @UNSUPPORTED_SETUP protocol_codes \/
        err_msg e = ERROR_UNSUPPORTED_RESUME)).
Proof.
  split; [reflexivity|].
  intros (e & R & H). vm_compute in R. injection R as <-.
  destruct H as [H|[H|H]]; discriminate H.
Qed.

(** The code 0x102 on stream 3 is not mapped. *)
Lemma handle_illegal_argument_diagnostic_witness :
  ~ In 0x102 (@mapped_codes protocol_codes 3) /\
  exists e,
    @handle protocol_codes 3 0x102 "boom" = Return e /\
    exn_class e = IllegalArgument /\
    err_code e = 0x102 /\
    contains "3" (err_msg e) = true /\
    contains "boom" (err_msg e) = true.
Proof.
  assert (U : ~ In 0x102 (@mapped_codes protocol_codes 3))
    by (simpl; lia).
  split; [exact U|].
  destruct (@handle_illegal_argument_diagnostic protocol_codes 3 0x102
              "boom" U) as (e & R & C & K & S & M & _).
  exists e. repeat split; assumption.
Defined.

(** C5 as stated fails: for the unmapped code 0x102 (258) on stream 3
    the diagnostic is "Invalid Error frame in Stream ID 0: 3, 'boom'";
    the code occurs in it neither in decimal nor in hexadecimal, and
    the unmapped code 0x004 gives the very same text. *)
Lemma illegal_argument_diagnostic_omits_code :
  ~ In 0x102 (@mapped_codes protocol_codes 3) /\
  exists e,
    @handle protocol_codes 3 0x102 "boom" = Return e /\
    exn_class e = IllegalArgument /\
    err_msg e = "Invalid Error frame in Stream ID 0: 3, 'boom'" /\
    contains (str_int 0x102) (err_msg e) = false /\
    contains "102" (err_msg e) = false /\
    exists e',
      @handle protocol_codes 3 0x004 "boom" = Return e' /\
      err_msg e' = err_msg e.
Proof.
  split; [simpl; lia|].
  eexists; split; [reflexivity|]. repeat split.
  eexists; split; reflexivity.
Qed.

(** [handle] returns on an unmapped code. *)
Lemma handle_total_witness :
  ~ In 0x102 (@mapped_codes protocol_codes 0) /\
  exists e,
    @handle protocol_codes 0 0x102 "bye" = Return e /\
    exn_class e = IllegalArgument.
Proof.
  assert (U : ~ In 0x102 (@mapped_codes protocol_codes 0))
    by (simpl; lia).
  split; [exact U|].
  destruct (@handle_total protocol_codes 0 0x102 "bye")
    as (e & R & _ & _ & C).
  exists e. split; [exact R | exact (C U)].
Defined.

(** The unmapped code 0x001 (INVALID_SETUP, a connection code) on
    stream 7. *)
Lemma handle_stream_illegal_argument_message_witness :
  7 <> 0 /\ ~ In 0x001 (@stream_codes protocol_codes) /\
  exists e,
    @handle protocol_codes 7 0x001 "late" = Return e /\
    err_msg e = "Invalid Error frame in Stream ID 0: 7, 'late'".
Proof.
  assert (U : ~ In 0x001 (@stream_codes protocol_codes)) by (simpl; lia).
  split; [lia|]. split; [exact U|].
  destruct (@handle_stream_illegal_argument_message protocol_codes 7 0x001
              "late" ltac:(lia) U) as (e & R & _ & M & _).
  exists e. split; [exact R | exact M].
Defined.

(** A setup frame on stream 2 gets the stream-id message. *)
Lemma verify_first_frame_stream_id_first_witness :
  2 <> 0 /\
  @verify_first_frame protocol_codes (mkFrame SETUP 2)
  = Raise (InvalidSetupException 1
             "SETUP or RESUME is not a frame with stream id of 0").
Proof.
  split; [lia|].
  destruct (@verify_first_frame_stream_id_first protocol_codes)
    as (_ & H & _).
  apply H. lia.
Defined.

(** The 8-item source of [test_request_stream_rxbp]. *)
Lemma request_stream_backpressure_witness :
  (3 < length RequestStream.from_range_8)%nat /\
  RequestStream.emitted
    (RequestStream.request_stream 3 RequestStream.from_range_8)
  = ["data-0"; "data-1"; "data-2"].
Proof.
  split; [simpl; lia|].
  destruct request_stream_backpressure as (H & _).
  destruct (H string RequestStream.from_range_8 ltac:(simpl; lia))
    as (E & _).
  exact E.
Defined.

(** The handler of [test_request_response_cancellation] and the empty
    payload it is sent. *)
Lemma request_response_cancellation_witness :
  @RequestResponse.never_completes string string "" = RequestResponse.Pending
  /\
  RequestResponse.caller
    (RequestResponse.steps (Payload:=string) (Err:=string)
       RequestResponse.never_completes
       (RequestResponse.request_response "")
       [RequestResponse.DeliverToResponder; RequestResponse.CallerCancels;
        RequestResponse.DeliverToResponder])
  = RequestResponse.Cancelled.
Proof.
  split; [reflexivity|].
  destruct (@request_response_cancellation string string
              RequestResponse.never_completes "" eq_refl)
    as (_ & H & _).
  exact H.
Defined.

End Instances.

(** * Further properties of [rsocket/errors.py] *)

Section HandleMore.
Import Frame Errors.
Context {EC : ErrorCode}.

(** Either the code is one [handle] maps at this stream id, and the
    exception returned carries the code and the message unchanged under
    a class other than IllegalArgument, or it is not, and the
    exception is the IllegalArgumentException with the diagnostic. *)
Lemma handle_cases (stream_id code : Z) (message : string) :
  (In code (mapped_codes stream_id) /\
   exists cls, cls <> IllegalArgument /\
     handle stream_id code message
     = Return (mkCustomException cls code message)) \/
  (~ In code (mapped_codes stream_id) /\
   handle stream_id code message
   = Return (IllegalArgumentException code
               ("Invalid Error frame in Stream ID 0: "
                  ++ str_int stream_id ++ ", '" ++ message ++ "'"))).
Proof.
  unfold handle, mapped_codes, connection_codes, stream_codes.
  destruct (stream_id =? 0);
    repeat match goal with
           | |- context [if ?c =? ?k then _ else _] =>
               destruct (Z.eqb_spec c k)
           end;
    try (left; split; [simpl; intuition congruence|];
         eexists; split; [|reflexivity]; discriminate);
    right; (split; [simpl; intuition congruence | reflexivity]).
Qed.

(** X1.  The class of the exception [handle] returns tells where it
    came from: each connection-scope class is returned only on stream
    id 0 and only for the code of the same name, each stream-scope
    class only on another stream id and only for the code of the same
    name, in both cases with the message unchanged; an
    IllegalArgumentException is returned only for a code that is not
    mapped at that stream id; a ConnectionException is never
    returned. *)
Theorem handle_class_sound
  (stream_id code : Z) (message : string) (e : CustomException) :
  handle stream_id code message = Return e ->
  err_code e = code /\
  match exn_class e with
  | InvalidSetup =>
      stream_id = 0 /\ code = INVALID_SETUP /\ err_msg e = message
  | UnsupportedSetup =>
      stream_id = 0 /\ code = UNSUPPORTED_SETUP /\ err_msg e = message
  | RejectedSetup =>
      stream_id = 0 /\ code = REJECTED_SETUP /\ err_msg e = message
  | ConnectionError =>
      stream_id = 0 /\ code = CONNECTION_ERROR /\ err_msg e = message
  | Application =>
      stream_id <> 0 /\ code = APPLICATION_ERROR /\ err_msg e = message
  | Rejected =>
      stream_id <> 0 /\ code = REJECTED /\ err_msg e = message
  | Canceled =>
      stream_id <> 0 /\ code = CANCELED /\ err_msg e = message
  | Invalid =>
      stream_id <> 0 /\ code = INVALID /\ err_msg e = message
  | IllegalArgument => ~ In code (mapped_codes stream_id)
  | Connection => False
  end.
Proof.
  unfold handle, mapped_codes, connection_codes, stream_codes.
  destruct (Z.eqb_spec stream_id 0);
    repeat match goal with
           | |- context [if ?c =? ?k then _ else _] =>
               destruct (Z.eqb_spec c k)
           end;
    intros [= <-]; simpl; repeat split; auto; intuition congruence.
Qed.

(** X2.  [handle] returns an IllegalArgumentException exactly when the
    code is not mapped at the stream id, and it hands the message back
    verbatim exactly when the code is mapped. *)
Theorem handle_illegal_argument_iff
  (stream_id code : Z) (message : string) (e : CustomException) :
  handle stream_id code message = Return e ->
  (exn_class e = IllegalArgument <-> ~ In code (mapped_codes stream_id)) /\
  (err_msg e = message <-> In code (mapped_codes stream_id)).
Proof.
  intros R.
  destruct (handle_cases stream_id code message)
    as [(M & cls & Hcls & E)|(U & E)];
    rewrite E in R; injection R as <-; simpl.
  - split; split; tauto.
  - destruct (diagnostic_echoes stream_id message) as (_ & _ & Hne).
    split; split; tauto.
Qed.

(** X3.  When the eight members of ErrorCode have pairwise different
    values, a code is accepted only in its own scope: each
    stream-scope code on stream id 0, and each connection-scope code
    on any other stream id, yields an IllegalArgumentException. *)
Theorem handle_wrong_scope (stream_id code : Z) (message : string) :
  NoDup (connection_codes ++ stream_codes) ->
  (stream_id = 0 /\ In code stream_codes) \/
  (stream_id <> 0 /\ In code connection_codes) ->
  exists diagnostic,
    handle stream_id code message
    = Return (IllegalArgumentException code diagnostic).
Proof.
  intros D H.
  assert (U : ~ In code (mapped_codes stream_id)).
  { unfold mapped_codes, connection_codes, stream_codes in *.
    simpl in D. rewrite !NoDup_cons_iff in D. simpl in D.
    destruct H as [[-> H]|[nz H]].
    - simpl in *. intuition congruence.
    - destruct (Z.eqb_spec stream_id 0); [contradiction|].
      simpl in *. intuition congruence. }
  rewrite (handle_unmapped _ _ _ U). eexists; reflexivity.
Qed.

(** X5.  Feeding the code and the message of the exception [handle]
    returned back to [handle] on the same stream id gives the same
    exception again when the code is mapped; when it is not, it gives
    an IllegalArgumentException with the same code whose diagnostic
    wraps the previous diagnostic and is strictly longer. *)
Theorem handle_again
  (stream_id code : Z) (message : string) (e : CustomException) :
  handle stream_id code message = Return e ->
  (In code (mapped_codes stream_id) ->
   handle stream_id (err_code e) (err_msg e) = Return e) /\
  (~ In code (mapped_codes stream_id) ->
   exists e',
     handle stream_id (err_code e) (err_msg e) = Return e' /\
     exn_class e' = IllegalArgument /\
     err_code e' = code /\
     contains (err_msg e) (err_msg e') = true /\
     (String.length (err_msg e) < String.length (err_msg e'))%nat).
Proof.
  intros R.
  pose proof (handle_cases stream_id code message) as H.
  remember ("Invalid Error frame in Stream ID 0: "
              ++ str_int stream_id ++ ", '" ++ message ++ "'")
    as previous eqn:Ep.
  destruct H as [(M & cls & Hcls & E)|(U & E)];
    rewrite E in R; injection R as <-;
    cbn [exn_class err_code err_msg IllegalArgumentException]; split;
    try tauto.
  intros _. clear E.
  rewrite (handle_unmapped _ _ _ U).
  eexists; split; [reflexivity|].
  cbn [exn_class err_code err_msg IllegalArgumentException].
  destruct (diagnostic_echoes stream_id previous) as (_ & Hc & _).
  repeat split; [exact Hc|].
  rewrite !string_length_app. cbn [String.length]. lia.
Qed.

End HandleMore.

(** ** The diagnostic identifies its stream id and message *)

Lemma string_app_inv_head (a x y : string) : a ++ x = a ++ y -> x = y.
Proof.
  induction a as [|c a IH]; simpl; [auto|]. intros [= H]. auto.
Qed.

Lemma string_app_inv_tail (a b c : string) : a ++ c = b ++ c -> a = b.
Proof.
  revert b; induction a as [|x a IH]; intros [|y b] H; simpl in H.
  - reflexivity.
  - apply (f_equal String.length) in H. simpl in H.
    rewrite string_length_app in H. lia.
  - apply (f_equal String.length) in H. simpl in H.
    rewrite string_length_app in H. lia.
  - injection H as -> H. f_equal. auto.
Qed.

(** Two strings that agree after a separator neither prefix contains
    have the same prefix and the same rest. *)
Lemma string_split_at (ch : ascii) (a b x y : string) :
  occurs ch a = false -> occurs ch b = false ->
  a ++ String ch x = b ++ String ch y -> a = b /\ x = y.
Proof.
  revert b; induction a as [|c a IH]; intros [|d b] Ha Hb H; simpl in *.
  - injection H as ->. auto.
  - injection H as <- _. now rewrite Ascii.eqb_refl in Hb.
  - injection H as -> _. now rewrite Ascii.eqb_refl in Ha.
  - injection H as -> H.
    destruct (Ascii.eqb ch d); [discriminate|].
    destruct (IH b Ha Hb H) as [-> ->]. auto.
Qed.

(** [str] of an integer is made of digits and a minus sign. *)
Lemma str_int_no_comma (n : Z) : occurs "," (str_int n) = false.
Proof.
  assert (U : forall d, occurs "," (NilEmpty.string_of_uint d) = false)
    by (induction d; simpl; auto).
  assert (V : forall d, occurs "," (NilZero.string_of_uint d) = false)
    by (intros d; destruct d; try apply U; reflexivity).
  unfold str_int. destruct (Z.to_int n); simpl; apply V.
Qed.

Lemma diagnostic_inj (s s' : Z) (m m' : string) :
  "Invalid Error frame in Stream ID 0: " ++ str_int s ++ ", '" ++ m ++ "'"
  = "Invalid Error frame in Stream ID 0: "
      ++ str_int s' ++ ", '" ++ m' ++ "'" ->
  s = s' /\ m = m'.
Proof.
  intros H. apply string_app_inv_head in H.
  change (", '" ++ m ++ "'") with (String "," (" '" ++ m ++ "'")) in H.
  change (", '" ++ m' ++ "'") with (String "," (" '" ++ m' ++ "'")) in H.
  apply string_split_at in H; try apply str_int_no_comma.
  destruct H as [Hs Hm]. split; [now apply str_int_inj|].
  apply string_app_inv_head in Hm. now apply string_app_inv_tail in Hm.
Qed.

Section ErrorsMore.
Import Frame Errors.
Context {EC : ErrorCode}.

(** X6.  The IllegalArgumentException [handle] returns for an unmapped
    code identifies the call: two calls with unmapped codes that
    return equal exceptions were given the same stream id, the same
    code and the same message. *)
Theorem handle_illegal_argument_inj
  (stream_id stream_id' code code' : Z) (message message' : string) :
  ~ In code (mapped_codes stream_id) ->
  ~ In code' (mapped_codes stream_id') ->
  handle stream_id code message = handle stream_id' code' message' ->
  stream_id = stream_id' /\ code = code' /\ message = message'.
Proof.
  intros U U' H.
  rewrite (handle_unmapped _ _ _ U), (handle_unmapped _ _ _ U') in H.
  remember ("Invalid Error frame in Stream ID 0: "
              ++ str_int stream_id ++ ", '" ++ message ++ "'") as d eqn:Ed.
  remember ("Invalid Error frame in Stream ID 0: "
              ++ str_int stream_id' ++ ", '" ++ message' ++ "'")
    as d' eqn:Ed'.
  injection H as Hc Hd. subst d d'.
  destruct (diagnostic_inj _ _ _ _ Hd). auto.
Qed.

(** X4.  What first-frame validation raises survives the trip through
    an error frame on stream id 0: [handle], given stream id 0 and the
    code and message of the exception [verify_first_frame] raised,
    returns that very exception.  On any other stream id the same code
    and message yield an IllegalArgumentException, provided
    INVALID_SETUP is not the value of a stream-scope member. *)
Theorem first_frame_error_round_trip (frame : Frame) (e : CustomException) :
  verify_first_frame frame = Raise e ->
  handle 0 (err_code e) (err_msg e) = Return e /\
  (~ In INVALID_SETUP stream_codes ->
   forall stream_id, stream_id <> 0 ->
     exists e',
       handle stream_id (err_code e) (err_msg e) = Return e' /\
       exn_class e' = IllegalArgument).
Proof.
  intros R.
  assert (He : exists msg, e = InvalidSetupException INVALID_SETUP msg).
  { unfold verify_first_frame in R.
    destruct (negb (stream_id frame =? 0));
      [|destruct (negb (isinstance_SetupFrame frame))];
      try discriminate; injection R as <-; eexists; reflexivity. }
  destruct He as [msg ->].
  cbn [err_code err_msg InvalidSetupException]. split.
  - rewrite handle_connection_branch. now rewrite Z.eqb_refl.
  - intros U stream_id nz.
    assert (U' : ~ In INVALID_SETUP (mapped_codes stream_id)).
    { unfold mapped_codes. now destruct (Z.eqb_spec stream_id 0). }
    rewrite (handle_unmapped _ _ _ U'). eexists; split; reflexivity.
Qed.

(** X7.  [verify_first_frame] returns for a setup frame on stream id 0
    and for no other frame; whatever it raises is an
    InvalidSetupException with the code INVALID_SETUP and one of its
    two messages. *)
Theorem verify_first_frame_accepts_iff (frame : Frame) :
  (verify_first_frame frame = Return tt
   <-> stream_id frame = 0 /\ frame_type frame = SETUP) /\
  (forall e, verify_first_frame frame = Raise e ->
     exn_class e = InvalidSetup /\
     err_code e = INVALID_SETUP /\
     (err_msg e = ERROR_INVALID_STREAM \/
      err_msg e = ERROR_INVALID_FIRST_FRAME)).
Proof.
  unfold verify_first_frame, isinstance_SetupFrame.
  destruct (Z.eqb_spec (stream_id frame) 0) as [z|nz]; simpl.
  - destruct (frame_type frame); simpl; split;
      try (split; [discriminate | intros [_ H]; discriminate H]);
      try (intros e [= <-]; simpl; auto);
      try (split; auto); try discriminate.
  - split; [split; [discriminate | tauto]|].
    intros e [= <-]; simpl; auto.
Qed.

End ErrorsMore.

(** * The handlers of the request-response tests *)

Section TestHandlersFacts.
Import TestHandlers.









End TestHandlersFacts.

(** * Further concrete instances *)

Section MoreInstances.
Import Frame Errors TestHandlers.

(** A CANCELED on stream 9. *)
Lemma handle_class_sound_witness :
  @handle protocol_codes 9 0x203 "stop"
  = Return (CanceledException 0x203 "stop") /\
  9 <> 0 /\ 0x203 = @CANCELED protocol_codes.
Proof.
  assert (R : @handle protocol_codes 9 0x203 "stop"
              = Return (CanceledException 0x203 "stop")) by reflexivity.
  split; [exact R|].
  destruct (@handle_class_sound protocol_codes 9 0x203 "stop" _ R)
    as (_ & nz & E & _).
  split; assumption.
Defined.

(** An unmapped code on stream 0. *)
Lemma handle_illegal_argument_iff_witness :
  @handle protocol_codes 0 0x201 "x"
  = Return (IllegalArgumentException 0x201
              "Invalid Error frame in Stream ID 0: 0, 'x'") /\
  ~ In 0x201 (@mapped_codes protocol_codes 0).
Proof.
  assert (R : @handle protocol_codes 0 0x201 "x"
              = Return (IllegalArgumentException 0x201
                          "Invalid Error frame in Stream ID 0: 0, 'x'"))
    by reflexivity.
  split; [exact R|].
  destruct (@handle_illegal_argument_iff protocol_codes 0 0x201 "x" _ R)
    as ((H & _) & _).
  apply H. reflexivity.
Defined.

(** APPLICATION_ERROR on stream 0. *)
Lemma handle_wrong_scope_witness :
  NoDup (@connection_codes protocol_codes ++ @stream_codes protocol_codes)
  /\ In 0x201 (@stream_codes protocol_codes) /\
  exists diagnostic,
    @handle protocol_codes 0 0x201 "x"
    = Return (IllegalArgumentException 0x201 diagnostic).
Proof.
  assert (D : NoDup (@connection_codes protocol_codes
                       ++ @stream_codes protocol_codes))
    by (repeat constructor; simpl; lia).
  assert (I : In 0x201 (@stream_codes protocol_codes))
    by (simpl; lia).
  split; [exact D|]. split; [exact I|].
  exact (@handle_wrong_scope protocol_codes 0 0x201 "x" D
           (or_introl (conj eq_refl I))).
Defined.

(** The exception raised for a payload frame on stream 0. *)
Lemma first_frame_error_round_trip_witness :
  @verify_first_frame protocol_codes (mkFrame PAYLOAD 0)
  = Raise (InvalidSetupException 1 ERROR_INVALID_FIRST_FRAME) /\
  @handle protocol_codes 0 1 ERROR_INVALID_FIRST_FRAME
  = Return (InvalidSetupException 1 ERROR_INVALID_FIRST_FRAME).
Proof.
  assert (R : @verify_first_frame protocol_codes (mkFrame PAYLOAD 0)
              = Raise (InvalidSetupException 1 ERROR_INVALID_FIRST_FRAME))
    by reflexivity.
  split; [exact R|].
  destruct (@first_frame_error_round_trip protocol_codes _ _ R) as (H & _).
  exact H.
Defined.

(** A REJECTED on stream 2, handled again. *)
Lemma handle_again_witness :
  @handle protocol_codes 2 0x202 "busy"
  = Return (RejectedException 0x202 "busy") /\
  In 0x202 (@mapped_codes protocol_codes 2) /\
  @handle protocol_codes 2
    (err_code (RejectedException 0x202 "busy"))
    (err_msg (RejectedException 0x202 "busy"))
  = Return (RejectedException 0x202 "busy").
Proof.
  assert (R : @handle protocol_codes 2 0x202 "busy"
              = Return (RejectedException 0x202 "busy")) by reflexivity.
  assert (I : In 0x202 (@mapped_codes protocol_codes 2)) by (simpl; lia).
  split; [exact R|]. split; [exact I|].
  destruct (@handle_again protocol_codes 2 0x202 "busy" _ R) as (H & _).
  exact (H I).
Defined.

(** Two calls with the unmapped code 0x102 on stream 3. *)
Lemma handle_illegal_argument_inj_witness :
  ~ In 0x102 (@mapped_codes protocol_codes 3) /\
  @handle protocol_codes 3 0x102 "boom"
  = @handle protocol_codes 3 0x102 "boom" /\
  3 = 3 /\ 0x102 = 0x102 /\ "boom" = "boom".
Proof.
  assert (U : ~ In 0x102 (@mapped_codes protocol_codes 3)) by (simpl; lia).
  split; [exact U|]. split; [reflexivity|].
  exact (@handle_illegal_argument_inj protocol_codes 3 3 0x102 0x102
           "boom" "boom" U U eq_refl).
Defined.

(** A setup frame on stream 0, and what a cancel frame on stream 4
    raises. *)
Lemma verify_first_frame_accepts_iff_witness :
  @verify_first_frame protocol_codes (mkFrame SETUP 0) = Return tt /\
  @verify_first_frame protocol_codes (mkFrame CANCEL 4)
  = Raise (InvalidSetupException 1 ERROR_INVALID_STREAM) /\
  exn_class (InvalidSetupException 1 ERROR_INVALID_STREAM) = InvalidSetup.
Proof.
  destruct (@verify_first_frame_accepts_iff protocol_codes (mkFrame SETUP 0))
    as ((_ & A) & _).
  destruct (@verify_first_frame_accepts_iff protocol_codes (mkFrame CANCEL 4))
    as (_ & B).
  assert (R : @verify_first_frame protocol_codes (mkFrame CANCEL 4)
              = Raise (InvalidSetupException 1 ERROR_INVALID_STREAM))
    by reflexivity.
  split; [apply A; split; reflexivity|].
  split; [exact R|]. exact (proj1 (B _ R)).
Defined.





End MoreInstances.
